(** * mycli: the destructive-statement confirmation gate

    A shallow embedding of [mycli/packages/prompt_utils.py] and the
    properties of its decision logic.

    Layout:
    - [PyStr]: the methods of Python's [str] the module calls
      ([lower], [strip], [split], [startswith], membership);
    - [SqlAnalysis], [Console]: the collaborators the module imports
      ([sqlparse.split], [parseutils.is_destructive],
      [parseutils.query_has_where_clause], [sys.stdin.isatty],
      [click.prompt], [click.confirm]), as interfaces;
    - the module's own code: [convert], [_needs_double_confirmation],
      [confirm_destructive_query], [confirm], [prompt];
    - test doubles ([Demo]) used to run the code on concrete inputs;
    - the theorems.

    Modelling limits.  A Python [str] is modelled by a Rocq [string]
    read as ASCII text: [lower] changes only [A-Z], whitespace is the
    ASCII whitespace of [str.isspace], and a byte above 127 is a
    caseless non-space character.  On text for which [isascii] holds
    these are the methods of Python; on other text Python also folds
    the case of non-ASCII letters and also counts characters such as
    U+00A0 as whitespace.  A theorem whose hypothesis speaks of the
    whitespace or of the tokens of a text therefore asks that text to
    be ASCII. *)

From Stdlib Require Import String Ascii List Bool Arith.
Import ListNotations.
Local Open Scope string_scope.
Local Open Scope nat_scope.
Local Open Scope list_scope.

Set Implicit Arguments.

(* ================================================================= *)
(** * Python's [str] methods *)

Module PyStr.

(** [c.isspace()] on ASCII: TAB, LF, VT, FF, CR, FS, GS, RS, US, SPACE. *)
Definition isspace (c : ascii) : bool :=
  let n := nat_of_ascii c in
  ((9 <=? n) && (n <=? 13)) || ((28 <=? n) && (n <=? 32)).

Definition isupper (c : ascii) : bool :=
  let n := nat_of_ascii c in (65 <=? n) && (n <=? 90).

Definition lower_char (c : ascii) : ascii :=
  if isupper c then ascii_of_nat (nat_of_ascii c + 32) else c.

(** [s.lower()] *)
Fixpoint lower (s : string) : string :=
  match s with
  | EmptyString => EmptyString
  | String c r => String (lower_char c) (lower r)
  end.

(** Truthiness of a [str]: non-empty. *)
Definition truthy (s : string) : bool :=
  match s with EmptyString => false | String _ _ => true end.

Fixpoint lstrip (s : string) : string :=
  match s with
  | EmptyString => EmptyString
  | String c r => if isspace c then lstrip r else s
  end.

Fixpoint rstrip (s : string) : string :=
  match s with
  | EmptyString => EmptyString
  | String c r =>
      let r' := rstrip r in
      if isspace c && negb (truthy r') then EmptyString else String c r'
  end.

(** [s.strip()] *)
Definition strip (s : string) : string := rstrip (lstrip s).

(** [s.startswith(p)] *)
Definition startswith (s p : string) : bool := String.prefix p s.

(** [s.split()] with no separator: runs of whitespace separate the
    tokens and no empty token is produced.  [tok] is the token being
    read. *)
Fixpoint split_from (tok : string) (s : string) : list string :=
  match s with
  | EmptyString => if truthy tok then [tok] else []
  | String c r =>
      if isspace c
      then (if truthy tok then tok :: split_from EmptyString r
            else split_from EmptyString r)
      else split_from (tok ++ String c EmptyString) r
  end.

Definition split (s : string) : list string := split_from EmptyString s.

(** [x in l] for a list of strings. *)
Definition contains (l : list string) (x : string) : bool :=
  existsb (String.eqb x) l.

(** [s.isascii()]: every character is below 128. *)
Fixpoint isascii (s : string) : bool :=
  match s with
  | EmptyString => true
  | String c r => (nat_of_ascii c <? 128) && isascii r
  end.

(** The first whitespace character of [s], if any. *)
Fixpoint first_space (s : string) : option ascii :=
  match s with
  | EmptyString => None
  | String c r => if isspace c then Some c else first_space r
  end.

(** The longest whitespace-free prefix of [s]. *)
Fixpoint head_token (s : string) : string :=
  match s with
  | EmptyString => EmptyString
  | String c r => if isspace c then EmptyString else String c (head_token r)
  end.

(** What follows [head_token s] in [s]. *)
Fixpoint after_token (s : string) : string :=
  match s with
  | EmptyString => EmptyString
  | String c r => if isspace c then s else after_token r
  end.

End PyStr.

(* ================================================================= *)
(** * Values, exceptions and results *)

(** The exceptions that can cross the functions of the module. *)
Inductive exn : Type :=
| Abort                          (* click.Abort *)
| BadParameter (msg : string)    (* click.BadParameter, from [self.fail] *)
| IndexError                     (* [l[0]] on an empty list *)
| OtherError (what : string).    (* anything else a collaborator raises *)

(** A call either returns a value or raises. *)
Inductive outcome (A : Type) : Type :=
| Returned (a : A)
| Raised (e : exn).
Arguments Returned {A} a.
Arguments Raised {A} e.

(** The argument of [convert]: [bool | str]. *)
Inductive pyvalue : Type :=
| PyBool (b : bool)
| PyText (s : string).

(** [l[0]] *)
Definition item0 (l : list string) : outcome string :=
  match l with
  | [] => Raised IndexError
  | x :: _ => Returned x
  end.

(* ================================================================= *)
(** * [ConfirmBoolParamType] *)

(** A [click.ParamType]: its [name], its [__repr__] and its [convert]. *)
Record ParamType : Type := {
  name : string;
  repr : string;
  convert : pyvalue -> outcome bool
}.

(** [ConfirmBoolParamType.convert(self, value, param, ctx)].  [param]
    and [ctx] only decorate the failure and are left out. *)
Definition ConfirmBoolParamType_convert (value : pyvalue) : outcome bool :=
  match value with
  | PyBool b => Returned b
  | PyText s =>
      let value := PyStr.lower s in
      if PyStr.contains ["yes"; "y"] value then Returned true
      else if PyStr.contains ["no"; "n"] value then Returned false
      else Raised (BadParameter (value ++ " is not a valid boolean"))
  end.

Definition BOOLEAN_TYPE : ParamType :=
  {| name := "confirmation";
     repr := "BOOL";
     convert := ConfirmBoolParamType_convert |}.

(* ================================================================= *)
(** * The collaborators *)

(** [sqlparse.split] and the two classifiers of [mycli.packages.parseutils]. *)
Class SqlAnalysis : Type := {
  sqlparse_split : string -> list string;
  is_destructive : string -> bool;
  query_has_where_clause : string -> bool
}.

(** The interactive device, over a type [World] of terminal states:
    [sys.stdin.isatty()], [click.prompt(text, type=ty)] and
    [click.confirm(text)]. *)
Class Console (World : Type) : Type := {
  stdin_isatty : World -> bool;
  click_prompt : string -> ParamType -> World -> outcome bool * World;
  click_confirm : string -> World -> outcome bool * World
}.

(** What a run has done so far: the terminal, and the texts handed to
    [click.prompt] and [click.confirm], oldest first. *)
Record Session (World : Type) : Type := {
  world : World;
  prompted : list string
}.

(** Stateful code that may raise; the state survives a raise. *)
Definition M (World A : Type) : Type :=
  Session World -> outcome A * Session World.

Definition ret {World A : Type} (a : A) : M World A :=
  fun s => (Returned a, s).

Definition bind {World A B : Type} (m : M World A) (k : A -> M World B)
  : M World B :=
  fun s =>
    match m s with
    | (Returned a, s') => k a s'
    | (Raised e, s') => (Raised e, s')
    end.

Definition lift {World A : Type} (r : outcome A) : M World A :=
  fun s => (r, s).

(** [try: m  except click.Abort: return a] *)
Definition except_Abort {World A : Type} (m : M World A) (a : A) : M World A :=
  fun s =>
    match m s with
    | (Raised Abort, s') => (Returned a, s')
    | r => r
    end.

Notation "x <- m ;; k" := (bind m (fun x => k))
  (at level 61, m at next level, right associativity).

(* ================================================================= *)
(** * [_needs_double_confirmation] *)

Section Decider.
Context {SA : SqlAnalysis}.

(** [[q.strip().lower() for q in sqlparse.split(queries) if q and q.strip()]] *)
Definition normalized (queries : string) : list string :=
  map (fun q => PyStr.lower (PyStr.strip q))
      (filter (fun q => PyStr.truthy q && PyStr.truthy (PyStr.strip q))
              (sqlparse_split queries)).

(** [[k.strip().lower() for k in keywords if k and k.strip()]] *)
Definition norm_keywords (keywords : list string) : list string :=
  map (fun k => PyStr.lower (PyStr.strip k))
      (filter (fun k => PyStr.truthy k && PyStr.truthy (PyStr.strip k))
              keywords).

(** The inner [for kw in norm_keywords] loop with its [break]. *)
Fixpoint prefix_matched (q : string) (kws : list string) : bool :=
  match kws with
  | [] => false
  | kw :: rest =>
      if PyStr.startswith q (kw ++ " ") || String.eqb q kw then true
      else prefix_matched q rest
  end.

(** The value of [matched] at [if matched:]. *)
Definition statement_matched (q : string) (kws : list string) : outcome bool :=
  if prefix_matched q kws then Returned true
  else
    match item0 (PyStr.split q) with
    | Returned first => Returned (PyStr.contains kws first)
    | Raised e => Raised e
    end.

(** The outer [for q in normalized] loop, then [return False]. *)
Fixpoint scan (strict_mode : bool) (kws : list string) (qs : list string)
  : outcome bool :=
  match qs with
  | [] => Returned false
  | q :: rest =>
      match statement_matched q kws with
      | Raised e => Raised e
      | Returned matched =>
          if matched then
            if strict_mode then Returned true
            else if negb (query_has_where_clause q) then Returned true
            else scan strict_mode kws rest
          else scan strict_mode kws rest
      end
  end.

Definition _needs_double_confirmation
    (queries : string) (keywords : list string) (strict_mode : bool)
  : outcome bool :=
  let normalized := normalized queries in
  match normalized with
  | [] => Returned false
  | _ =>
      let norm_keywords := norm_keywords keywords in
      match norm_keywords with
      | [] => Returned false
      | _ => scan strict_mode norm_keywords normalized
      end
  end.

(** The decider of the specification without its fallback rule: a
    statement matches when it equals a phrase or starts with the
    phrase and a space, and the first token is never looked at. *)
Fixpoint scan_prefix_only (strict_mode : bool) (kws : list string)
    (qs : list string) : outcome bool :=
  match qs with
  | [] => Returned false
  | q :: rest =>
      if prefix_matched q kws then
        if strict_mode then Returned true
        else if negb (query_has_where_clause q) then Returned true
        else scan_prefix_only strict_mode kws rest
      else scan_prefix_only strict_mode kws rest
  end.

Definition needs_double_confirmation_prefix_only
    (queries : string) (keywords : list string) (strict_mode : bool)
  : outcome bool :=
  match normalized queries with
  | [] => Returned false
  | qs =>
      match norm_keywords keywords with
      | [] => Returned false
      | kws => scan_prefix_only strict_mode kws qs
      end
  end.

(** A normalized statement matches the phrases [kws]: it equals one,
    or starts with one followed by a space, or its first token is one. *)
Definition matches (q : string) (kws : list string) : bool :=
  existsb (fun kw => PyStr.startswith q (kw ++ " ") || String.eqb q kw) kws
  || match PyStr.split q with
     | first :: _ => PyStr.contains kws first
     | [] => false
     end.

(** The first whitespace of the statement, if it has one, is a space. *)
Definition space_delimited (q : string) : bool :=
  match PyStr.first_space q with
  | None => true
  | Some c => Ascii.eqb c " "
  end.

End Decider.

(** A statement triggers the second confirmation: it matches, and the
    mode is strict or the classifier finds no WHERE clause on it. *)
Definition triggers {SA : SqlAnalysis} (strict_mode : bool)
    (kws : list string) (q : string) : bool :=
  matches q kws && (strict_mode || negb (query_has_where_clause q)).

Definition returns_true (r : outcome bool) : bool :=
  match r with
  | Returned true => true
  | _ => false
  end.

(** Starts with a character that is not whitespace. *)
Definition front_nonspace (q : string) : Prop :=
  match q with
  | EmptyString => False
  | String c _ => PyStr.isspace c = false
  end.

(** The same analysis with another WHERE-clause classifier. *)
Definition with_where (SA : SqlAnalysis) (has_where : string -> bool)
  : SqlAnalysis :=
  {| sqlparse_split := @sqlparse_split SA;
     is_destructive := @is_destructive SA;
     query_has_where_clause := has_where |}.

(* ================================================================= *)
(** * [prompt], [confirm] and [confirm_destructive_query] *)

Section Flow.
Context {SA : SqlAnalysis} {World : Type} {CO : Console World}.

(** The call [sys.stdin.isatty()]. *)
Definition sys_stdin_isatty : M World bool :=
  fun s => (Returned (stdin_isatty (world s)), s).

(** The call [click.prompt(text, type=ty)], recorded in the session. *)
Definition call_click_prompt (text : string) (ty : ParamType) : M World bool :=
  fun s =>
    let (r, w) := click_prompt text ty (world s) in
    (r, {| world := w; prompted := prompted s ++ [text] |}).

(** The call [click.confirm(text)], recorded in the session. *)
Definition call_click_confirm (text : string) : M World bool :=
  fun s =>
    let (r, w) := click_confirm text (world s) in
    (r, {| world := w; prompted := prompted s ++ [text] |}).

(** [confirm]: any arguments, passed through to [click.confirm]. *)
Definition confirm (text : string) : M World bool :=
  except_Abort (call_click_confirm text) false.

(** [prompt]: any arguments, passed through to [click.prompt]. *)
Definition prompt (text : string) (ty : ParamType) : M World bool :=
  except_Abort (call_click_prompt text ty) false.

Definition prompt_text : string :=
  "You're about to run a destructive command." ++ String "010" "Do you want to proceed? (y/n)".

Definition second_prompt_text : string :=
  "Please type 'yes' again to confirm (y/n)".

(** Truthiness of [double_confirm : bool | None]. *)
Definition flag_truthy (double_confirm : option bool) : bool :=
  match double_confirm with
  | Some b => b
  | None => false
  end.

(** Truthiness of [keywords : Iterable[str] | None], a list here. *)
Definition keywords_truthy (keywords : option (list string)) : bool :=
  match keywords with
  | Some (_ :: _) => true
  | _ => false
  end.

(** The iterable handed on as [keywords] once it is known truthy. *)
Definition keywords_items (keywords : option (list string)) : list string :=
  match keywords with
  | Some l => l
  | None => []
  end.

Definition confirm_destructive_query
    (queries : string) (double_confirm : option bool)
    (keywords : option (list string)) (strict_mode : bool)
  : M World (option bool) :=
  skip <- (if negb (is_destructive queries) then ret true
           else (tty <- sys_stdin_isatty ;; ret (negb tty))) ;;
  if skip then ret None
  else
    first <- prompt prompt_text BOOLEAN_TYPE ;;
    if negb first then ret (Some false)
    else if flag_truthy double_confirm && keywords_truthy keywords then
      need <- lift (_needs_double_confirmation
                      queries (keywords_items keywords) strict_mode) ;;
      if need then
        second <- prompt second_prompt_text BOOLEAN_TYPE ;;
        if negb second then ret (Some false) else ret (Some true)
      else ret (Some true)
    else ret (Some true).

(** A fresh session on terminal [w]: nothing prompted yet. *)
Definition start (w : World) : Session World :=
  {| world := w; prompted := [] |}.

(** The session after [click.prompt(text)] left the terminal in [w]. *)
Definition after_prompt (s : Session World) (text : string) (w : World)
  : Session World :=
  {| world := w; prompted := prompted s ++ [text] |}.

(** What the caller of [prompt] sees of an outcome of [click.prompt]. *)
Definition abort_to_false (r : outcome bool) : outcome bool :=
  match r with
  | Raised Abort => Returned false
  | _ => r
  end.

(** The double-confirmation gate of [confirm_destructive_query]. *)
Definition second_gate (queries : string) (double_confirm : option bool)
    (keywords : option (list string)) (strict_mode : bool) : bool :=
  flag_truthy double_confirm && keywords_truthy keywords
  && returns_true (_needs_double_confirmation
                     queries (keywords_items keywords) strict_mode).

End Flow.

(* ================================================================= *)
(** * Test doubles

    Small stand-ins for the collaborators, to run the code above on
    concrete inputs.  They are not the real [sqlparse] or [click]. *)

Module Demo.

(** Cut after each [;] and strip the pieces. *)
Fixpoint cut (piece : string) (s : string) : list string :=
  match s with
  | EmptyString => if PyStr.truthy piece then [PyStr.strip piece] else []
  | String c r =>
      if Ascii.eqb c ";"
      then PyStr.strip (piece ++ String c EmptyString) :: cut EmptyString r
      else cut (piece ++ String c EmptyString) r
  end.

Definition destructive_words : list string :=
  ["drop"; "shutdown"; "delete"; "truncate"; "alter"; "update"].

Definition first_word (q : string) : string :=
  match PyStr.split (PyStr.lower q) with
  | w :: _ => w
  | [] => EmptyString
  end.

#[export] Instance analysis : SqlAnalysis := {|
  sqlparse_split := cut EmptyString;
  is_destructive := fun queries =>
    existsb (fun q => PyStr.contains destructive_words (first_word q))
            (cut EmptyString queries);
  query_has_where_clause := fun q =>
    PyStr.contains (PyStr.split (PyStr.lower q)) "where"
|}.

(** What the operator does at the keyboard. *)
Inductive key : Type :=
| Typed (line : string)
| CtrlC.

Record Tty : Type := {
  tty : bool;
  keys : list key
}.

(** Read lines until one converts; an invalid line asks again; an
    interrupt or the end of the input aborts. *)
Fixpoint read_until_valid (ty : ParamType) (ks : list key)
  : outcome bool * list key :=
  match ks with
  | [] => (Raised Abort, [])
  | CtrlC :: rest => (Raised Abort, rest)
  | Typed line :: rest =>
      match convert ty (PyText line) with
      | Returned b => (Returned b, rest)
      | Raised (BadParameter _) => read_until_valid ty rest
      | Raised e => (Raised e, rest)
      end
  end.

Definition scripted_prompt (text : string) (ty : ParamType) (w : Tty)
  : outcome bool * Tty :=
  let (r, rest) := read_until_valid ty (keys w) in
  (r, {| tty := tty w; keys := rest |}).

#[export] Instance console : Console Tty := {|
  stdin_isatty := tty;
  click_prompt := scripted_prompt;
  click_confirm := fun text => scripted_prompt text BOOLEAN_TYPE
|}.

Definition terminal (ks : list key) : Tty := {| tty := true; keys := ks |}.
Definition pipe (ks : list key) : Tty := {| tty := false; keys := ks |}.

(** [confirm_destructive_query] run from a fresh session. *)
Definition run (w : Tty) (queries : string) (double_confirm : option bool)
    (keywords : option (list string)) (strict_mode : bool)
  : outcome (option bool) * Session Tty :=
  confirm_destructive_query queries double_confirm keywords strict_mode
    (start w).

Definition tab : string := String "009" EmptyString.

(** A terminal whose every read fails with an error that is not an
    abort (a closed descriptor, say). *)
Definition broken_console : Console unit := {|
  stdin_isatty := fun _ => true;
  click_prompt := fun _ _ w => (Raised (OtherError "OSError"), w);
  click_confirm := fun _ w => (Raised (OtherError "OSError"), w)
|}.

End Demo.

(* ================================================================= *)
(** * Running the code *)

Section Examples.
#[local] Existing Instance Demo.analysis.
#[local] Existing Instance Demo.console.

Example lower_ex : PyStr.lower "DROP Table X;" = "drop table x;".
Proof. reflexivity. Qed.

Example strip_ex : PyStr.strip "  a b  " = "a b".
Proof. reflexivity. Qed.

Example split_ex : PyStr.split "  drop   table x " = ["drop"; "table"; "x"].
Proof. reflexivity. Qed.

Example cut_ex :
sqlparse_split "SELECT 1; DROP TABLE x" = ["SELECT 1;"; "DROP TABLE x"].
Proof. reflexivity. Qed.

Example decider_strict_ex :
_needs_double_confirmation "SELECT 1; DROP TABLE x" ["drop"] true
= Returned true.
Proof. reflexivity. Qed.

Example decider_relaxed_where_ex :
_needs_double_confirmation "DELETE FROM users WHERE id=1" ["delete"] false
= Returned false.
Proof. reflexivity. Qed.

Example decider_relaxed_drop_database_ex :
_needs_double_confirmation "DROP DATABASE prod" ["drop database"] false
= Returned true.
Proof. reflexivity. Qed.

Example flow_two_prompts_no_ex :
Demo.run (Demo.terminal [Demo.Typed "y"; Demo.Typed "n"])
         "DROP TABLE users" (Some true) (Some ["drop"]) true
= (Returned (Some false),
   {| world := Demo.terminal [];
      prompted := [prompt_text; second_prompt_text] |}).
Proof. reflexivity. Qed.

Example flow_two_prompts_yes_ex :
Demo.run (Demo.terminal [Demo.Typed "y"; Demo.Typed "YES"])
         "DROP TABLE users" (Some true) (Some ["drop"]) true
= (Returned (Some true),
   {| world := Demo.terminal [];
      prompted := [prompt_text; second_prompt_text] |}).
Proof. reflexivity. Qed.

Example flow_one_prompt_ex :
Demo.run (Demo.terminal [Demo.Typed "maybe"; Demo.Typed "Y"])
         "DELETE FROM users WHERE id=1" (Some true) (Some ["delete"]) false
= (Returned (Some true),
   {| world := Demo.terminal []; prompted := [prompt_text] |}).
Proof. reflexivity. Qed.

Example flow_pipe_ex :
Demo.run (Demo.pipe [Demo.Typed "y"])
         "DROP TABLE users" (Some true) (Some ["drop"]) true
= (Returned None,
   {| world := Demo.pipe [Demo.Typed "y"]; prompted := [] |}).
Proof. reflexivity. Qed.

End Examples.

(* ================================================================= *)
(** * Facts about the string methods *)

Module PyStrFacts.
Import PyStr.

Lemma append_empty_r (s : string) : (s ++ EmptyString)%string = s.
Proof. induction s as [|c r IH]; simpl; [reflexivity | now rewrite IH]. Qed.

Lemma append_assoc (a b c : string) :
  ((a ++ b) ++ c = a ++ (b ++ c))%string.
Proof. induction a as [|x a IH]; simpl; [reflexivity | now rewrite IH]. Qed.

Lemma isspace_lower_char (c : ascii) : isspace (lower_char c) = isspace c.
Proof. destruct c as [[] [] [] [] [] [] [] []]; reflexivity. Qed.

(** [split] reads the head token first. *)
Lemma split_from_head (s tok : string) :
  split_from tok s =
  match after_token s with
  | EmptyString =>
      if truthy (tok ++ head_token s) then [(tok ++ head_token s)%string]
      else []
  | String _ r =>
      if truthy (tok ++ head_token s)
      then (tok ++ head_token s)%string :: split_from EmptyString r
      else split_from EmptyString r
  end.
Proof.
  revert tok. induction s as [|c r IH]; intros tok; simpl.
  - now rewrite append_empty_r.
  - destruct (isspace c) eqn:Hc.
    + now rewrite append_empty_r.
    + rewrite IH, append_assoc. reflexivity.
Qed.

(** On a string that starts with a non-space, the first token of
    [split] is the head token. *)
Lemma split_head_token (c : ascii) (r : string) :
  isspace c = false ->
  exists rest, split (String c r) = head_token (String c r) :: rest.
Proof.
  intros Hc. unfold split. rewrite split_from_head.
  cbn [after_token head_token]. rewrite Hc. cbn [append truthy].
  destruct (after_token r); eauto.
Qed.

Lemma contains_In (l : list string) (x : string) :
  contains l x = true <-> In x l.
Proof.
  unfold contains. rewrite existsb_exists. split.
  - intros [y [Hy E]]. apply String.eqb_eq in E. now subst.
  - intros H. exists x. split; [exact H | apply String.eqb_refl].
Qed.

(** [strip] leaves a non-space in front, when it leaves anything. *)
Lemma lstrip_front (s : string) :
  match lstrip s with
  | EmptyString => True
  | String c _ => isspace c = false
  end.
Proof.
  induction s as [|c r IH]; simpl; [exact I|].
  destruct (isspace c) eqn:Hc; [exact IH | exact Hc].
Qed.

Lemma rstrip_front (s : string) :
  match rstrip s, s with
  | String c _, String d _ => c = d
  | String _ _, EmptyString => False
  | EmptyString, _ => True
  end.
Proof.
  destruct s as [|d r]; simpl; [exact I|].
  destruct (isspace d && negb (truthy (rstrip r))); [exact I | reflexivity].
Qed.

Lemma strip_front (s : string) :
  match strip s with
  | EmptyString => True
  | String c _ => isspace c = false
  end.
Proof.
  unfold strip. pose proof (lstrip_front s) as L.
  pose proof (rstrip_front (lstrip s)) as R.
  destruct (rstrip (lstrip s)) as [|c t]; [exact I|].
  destruct (lstrip s) as [|d u]; [contradiction | now subst].
Qed.

End PyStrFacts.

(* ================================================================= *)
(** * Facts about the decider *)

Section DeciderFacts.
Context {SA : SqlAnalysis}.
Import PyStr PyStrFacts.

Lemma normal_form_front (x : string) :
  truthy (strip x) = true -> front_nonspace (lower (strip x)).
Proof.
  intros H. pose proof (strip_front x) as F.
  destruct (strip x) as [|c r]; [discriminate|].
  simpl. now rewrite isspace_lower_char.
Qed.

Lemma normalized_front (queries q : string) :
  In q (normalized queries) -> front_nonspace q.
Proof.
  unfold normalized. rewrite in_map_iff.
  intros [x [<- Hx]]. apply filter_In in Hx as [_ Hx].
  apply andb_true_iff in Hx as [_ Hx]. now apply normal_form_front.
Qed.

Lemma prefix_matched_existsb (q : string) (kws : list string) :
  prefix_matched q kws =
  existsb (fun kw => startswith q (kw ++ " ") || String.eqb q kw) kws.
Proof.
  induction kws as [|kw rest IH]; simpl; [reflexivity|].
  destruct (startswith q (kw ++ " ") || String.eqb q kw); simpl;
    [reflexivity | exact IH].
Qed.

Lemma matches_nil (q : string) : matches q [] = false.
Proof. unfold matches. simpl. now destruct (split q). Qed.

(** A statement that matches never reaches a failing [q.split()[0]]. *)
Lemma statement_matched_true (q : string) (kws : list string) :
  matches q kws = true -> statement_matched q kws = Returned true.
Proof.
  unfold matches, statement_matched. rewrite prefix_matched_existsb.
  destruct (existsb _ kws); simpl; [reflexivity|].
  destruct (split q) as [|first rest]; simpl; [discriminate|].
  now intros ->.
Qed.

Lemma statement_matched_front (q : string) (kws : list string) :
  front_nonspace q -> statement_matched q kws = Returned (matches q kws).
Proof.
  intros F. unfold matches, statement_matched.
  rewrite prefix_matched_existsb.
  destruct (existsb _ kws); simpl; [reflexivity|].
  destruct q as [|c r]; [contradiction|]. simpl in F.
  destruct (@split_head_token c r F) as [rest ->]. reflexivity.
Qed.

Lemma scan_existsb (strict_mode : bool) (kws qs : list string) :
  Forall front_nonspace qs ->
  scan strict_mode kws qs = Returned (existsb (triggers strict_mode kws) qs).
Proof.
  induction 1 as [|q rest F _ IH]; simpl; [reflexivity|].
  rewrite (@statement_matched_front q kws F). unfold triggers at 1.
  destruct (matches q kws); simpl; [|exact IH].
  destruct strict_mode; simpl; [reflexivity|].
  destruct (query_has_where_clause q); simpl; [exact IH | reflexivity].
Qed.

Lemma triggers_nil (strict_mode : bool) (qs : list string) :
  existsb (triggers strict_mode []) qs = false.
Proof.
  induction qs as [|q rest IH]; simpl; [reflexivity|].
  unfold triggers at 1. now rewrite matches_nil.
Qed.

(** The decider always returns, and what it returns. *)
Lemma decider_existsb (queries : string) (keywords : list string)
    (strict_mode : bool) :
  _needs_double_confirmation queries keywords strict_mode =
  Returned (existsb (triggers strict_mode (norm_keywords keywords))
                    (normalized queries)).
Proof.
  unfold _needs_double_confirmation.
  pose proof (normalized_front queries) as F.
  destruct (normalized queries) as [|q qs] eqn:Eq; [reflexivity|].
  destruct (norm_keywords keywords) as [|k ks] eqn:Ek.
  - now rewrite triggers_nil.
  - apply scan_existsb. apply Forall_forall. exact F.
Qed.

Lemma decider_true_iff (queries : string) (keywords : list string)
    (strict_mode : bool) :
  _needs_double_confirmation queries keywords strict_mode = Returned true
  <-> exists q, In q (normalized queries)
                /\ triggers strict_mode (norm_keywords keywords) q = true.
Proof.
  rewrite decider_existsb, <- existsb_exists.
  split; [now intros [= ->] | now intros ->].
Qed.

(** With a space (or nothing) after it, the head token is the whole
    statement or a prefix of it that a space follows. *)
Lemma head_token_prefix (q : string) :
  space_delimited q = true ->
  q = head_token q \/ startswith q (head_token q ++ " ") = true.
Proof.
  unfold space_delimited, startswith.
  induction q as [|c r IH]; simpl; [now left|].
  destruct (isspace c) eqn:Hc.
  - intros D. apply Ascii.eqb_eq in D. subst c. right.
    destruct (ascii_dec " " " "); [now destruct r | congruence].
  - intros D. destruct (IH D) as [E|E]; [left; now rewrite <- E | right].
    simpl. destruct (ascii_dec c c); [exact E | congruence].
Qed.

(** With a space (or nothing) after the first token, a statement
    whose first token is a phrase also starts with that phrase. *)
Lemma first_token_is_prefix (q : string) (kws : list string) :
  front_nonspace q -> space_delimited q = true ->
  matches q kws = prefix_matched q kws.
Proof.
  intros F D. unfold matches. rewrite <- prefix_matched_existsb.
  destruct (prefix_matched q kws) eqn:P; simpl; [reflexivity|].
  destruct q as [|c r]; [contradiction|]. simpl in F.
  destruct (@split_head_token c r F) as [rest ->].
  destruct (contains kws (head_token (String c r))) eqn:C; [|reflexivity].
  exfalso. apply contains_In in C.
  rewrite prefix_matched_existsb in P.
  assert (N : existsb (fun kw => startswith (String c r) (kw ++ " ")
                                 || String.eqb (String c r) kw) kws = true).
  { apply existsb_exists. exists (head_token (String c r)).
    split; [exact C|]. apply orb_true_iff.
    destruct (head_token_prefix _ D) as [E|E]; [right | left; exact E].
    rewrite <- E. apply String.eqb_refl. }
  congruence.
Qed.

Lemma scan_prefix_only_eq (strict_mode : bool) (kws qs : list string) :
  Forall front_nonspace qs ->
  Forall (fun q => space_delimited q = true) qs ->
  scan strict_mode kws qs = scan_prefix_only strict_mode kws qs.
Proof.
  induction 1 as [|q rest F _ IH]; intros D; simpl; [reflexivity|].
  inversion D as [|? ? Dq Drest]; subst.
  rewrite (@statement_matched_front q kws F), (@first_token_is_prefix q kws F Dq).
  rewrite (IH Drest). reflexivity.
Qed.

End DeciderFacts.

(* ================================================================= *)
(** * The decider: [_needs_double_confirmation] *)

Section DeciderTheorems.
Context {SA : SqlAnalysis}.

(** C3. In relaxed mode, when the loop reaches a statement [q] that
    matches a policy phrase (the flag [matched] is true), it returns
    true at once if the classifier finds no WHERE clause on [q], and
    otherwise goes on with the remaining statements, [q] itself not
    triggering.  For the decider:
    a matching statement of the blob on which the classifier finds no
    WHERE clause (such as DROP DATABASE) makes it return true; a
    matching statement with a WHERE clause has no part in the result,
    which is true exactly when another statement of the blob matches
    and has no WHERE clause, and false otherwise; on its own, such a
    statement gives false. *)
Theorem relaxed_mode_where_gate
    (queries : string) (keywords : list string)
    (q : string) (rest : list string)
    (Hmatch : matches q (norm_keywords keywords) = true) :
  statement_matched q (norm_keywords keywords) = Returned true
  /\ scan false (norm_keywords keywords) (q :: rest)
     = (if query_has_where_clause q
        then scan false (norm_keywords keywords) rest
        else Returned true)
  /\ scan false (norm_keywords keywords) [q]
     = Returned (negb (query_has_where_clause q))
  /\ (In q (normalized queries) ->
      query_has_where_clause q = false ->
      _needs_double_confirmation queries keywords false = Returned true)
  /\ (forall pre post,
        normalized queries = pre ++ q :: post ->
        query_has_where_clause q = true ->
        (_needs_double_confirmation queries keywords false = Returned true
         <-> exists p, In p (pre ++ post)
                       /\ matches p (norm_keywords keywords) = true
                       /\ query_has_where_clause p = false)
        /\ (_needs_double_confirmation queries keywords false
            = Returned false
            <-> forall p, In p (pre ++ post) ->
                          matches p (norm_keywords keywords) = true ->
                          query_has_where_clause p = true))
  /\ (normalized queries = [q] ->
      _needs_double_confirmation queries keywords false
      = Returned (negb (query_has_where_clause q))).
Proof.
  assert (Tq : triggers false (norm_keywords keywords) q
               = negb (query_has_where_clause q)).
  { unfold triggers. now rewrite Hmatch. }
  assert (L : forall l,
             scan false (norm_keywords keywords) (q :: l)
             = (if query_has_where_clause q
                then scan false (norm_keywords keywords) l
                else Returned true)).
  { intros l. simpl. rewrite (statement_matched_true _ _ Hmatch).
    now destruct (query_has_where_clause q). }
  split; [exact (statement_matched_true _ _ Hmatch)|].
  split; [apply L|]. split; [|split; [|split]].
  - rewrite L. now destruct (query_has_where_clause q).
  - intros Hin Hw. apply decider_true_iff. exists q. split; [exact Hin|].
    now rewrite Tq, Hw.
  - intros pre post E Hw.
    assert (D : _needs_double_confirmation queries keywords false
                = Returned (existsb (triggers false (norm_keywords keywords))
                                    (pre ++ post))).
    { rewrite decider_existsb, E, !existsb_app. cbn [existsb].
      now rewrite Tq, Hw. }
    rewrite D. split; split.
    + intros [= Ex]. apply existsb_exists in Ex as [p [Hp T]].
      unfold triggers in T. apply andb_true_iff in T as [M W].
      apply negb_true_iff in W. exists p. auto.
    + intros [p [Hp [M W]]]. f_equal. apply existsb_exists.
      exists p. split; [exact Hp|]. unfold triggers. now rewrite M, W.
    + intros [= Ex] p Hp M.
      destruct (query_has_where_clause p) eqn:W; [reflexivity|].
      assert (T : existsb (triggers false (norm_keywords keywords))
                          (pre ++ post) = true).
      { apply existsb_exists. exists p. split; [exact Hp|].
        unfold triggers. now rewrite M, W. }
      congruence.
    + intros H. f_equal.
      destruct (existsb _ (pre ++ post)) eqn:Ex; [|reflexivity].
      apply existsb_exists in Ex as [p [Hp T]].
      unfold triggers in T. apply andb_true_iff in T as [M W].
      rewrite (H p Hp M) in W. discriminate.
  - intros E. rewrite decider_existsb, E. cbn [existsb].
    now rewrite Tq, orb_false_r.
Qed.

(** C4. In strict mode the decider returns true exactly when some
    normalized statement of the blob matches some normalized phrase:
    a match anywhere in the blob is enough, whatever stands before it,
    and the WHERE-clause classifier has no say. *)
Theorem strict_mode_any_match (queries : string) (keywords : list string) :
  (_needs_double_confirmation queries keywords true = Returned true
   <-> exists q, In q (normalized queries)
                 /\ matches q (norm_keywords keywords) = true)
  /\ (forall pre q post,
        normalized queries = pre ++ q :: post ->
        matches q (norm_keywords keywords) = true ->
        _needs_double_confirmation queries keywords true = Returned true)
  /\ (forall has_where,
        @_needs_double_confirmation (with_where SA has_where)
           queries keywords true
        = _needs_double_confirmation queries keywords true).
Proof.
  assert (T : forall (A : SqlAnalysis) kws q,
             @triggers A true kws q = matches q kws).
  { intros A kws q. unfold triggers. simpl. apply andb_true_r. }
  assert (I : _needs_double_confirmation queries keywords true
              = Returned true
              <-> exists q, In q (normalized queries)
                            /\ matches q (norm_keywords keywords) = true).
  { rewrite decider_true_iff.
    split; intros [q [Hin Hq]]; exists q; split; trivial;
      now rewrite T in *. }
  split; [exact I|]. split.
  - intros pre q post E Hq. apply I. exists q. split; [|exact Hq].
    rewrite E. apply in_or_app. right. now left.
  - intros has_where. rewrite !decider_existsb. reflexivity.
Qed.

(** C5, as amended.  On a blob whose normalized statements are ASCII
    text and each have a space, or nothing, after their first token,
    the decider returns the same with and without the first-token
    fallback. *)
Theorem fallback_redundant_when_space_delimited
    (queries : string) (keywords : list string) (strict_mode : bool)
    (Hascii : Forall (fun q => PyStr.isascii q = true) (normalized queries))
    (Hdelim : Forall (fun q => space_delimited q = true)
                     (normalized queries)) :
  _needs_double_confirmation queries keywords strict_mode
  = needs_double_confirmation_prefix_only queries keywords strict_mode.
Proof.
  unfold _needs_double_confirmation, needs_double_confirmation_prefix_only.
  pose proof (normalized_front queries) as F.
  destruct (normalized queries) as [|q qs]; [reflexivity|].
  destruct (norm_keywords keywords) as [|k ks]; [reflexivity|].
  apply scan_prefix_only_eq; [|exact Hdelim].
  apply Forall_forall. exact F.
Qed.

(** C9. A blob without a non-blank statement, or a keyword collection
    without a non-blank phrase, makes the decider return false; it
    does not raise. *)
Theorem empty_input_is_no_match
    (queries : string) (keywords : list string) (strict_mode : bool)
    (Hempty : normalized queries = [] \/ norm_keywords keywords = []) :
  _needs_double_confirmation queries keywords strict_mode = Returned false.
Proof.
  unfold _needs_double_confirmation.
  destruct Hempty as [-> | E]; [reflexivity|].
  rewrite E. now destruct (normalized queries).
Qed.

(** C10. What relaxed mode sends to the second confirmation, strict
    mode sends there too. *)
Theorem relaxed_implies_strict
    (queries : string) (keywords : list string)
    (Hrelaxed : _needs_double_confirmation queries keywords false
                = Returned true) :
  _needs_double_confirmation queries keywords true = Returned true.
Proof.
  apply decider_true_iff in Hrelaxed as [q [Hin Hq]].
  apply decider_true_iff. exists q. split; [exact Hin|].
  unfold triggers in *. apply andb_true_iff in Hq as [Hm _].
  now rewrite Hm.
Qed.

End DeciderTheorems.

(* ================================================================= *)
(** * The boolean parser: [ConfirmBoolParamType.convert] *)

(** C8. [convert] hands a boolean back as it is; a text is lower-cased
    and only then compared: [y] and [yes] give true, [n] and [no] give
    false, in any letter case, and every other text is refused with
    [BadParameter], so no text gets a default answer. *)
Theorem convert_yes_no :
  (forall b, convert BOOLEAN_TYPE (PyBool b) = Returned b)
  /\ (forall s, convert BOOLEAN_TYPE (PyText s) = Returned true
                <-> PyStr.lower s = "y" \/ PyStr.lower s = "yes")
  /\ (forall s, convert BOOLEAN_TYPE (PyText s) = Returned false
                <-> PyStr.lower s = "n" \/ PyStr.lower s = "no")
  /\ (forall s, ~ In (PyStr.lower s) ["y"; "yes"; "n"; "no"]
                <-> convert BOOLEAN_TYPE (PyText s)
                    = Raised (BadParameter
                                (PyStr.lower s ++ " is not a valid boolean")))
  /\ (convert BOOLEAN_TYPE (PyText "Y") = Returned true
      /\ convert BOOLEAN_TYPE (PyText "yes") = Returned true
      /\ convert BOOLEAN_TYPE (PyText "N") = Returned false
      /\ convert BOOLEAN_TYPE (PyText "no") = Returned false).
Proof.
  assert (Y : forall v, PyStr.contains ["yes"; "y"] v = true
                        <-> v = "y" \/ v = "yes").
  { intros v. rewrite PyStrFacts.contains_In. simpl. intuition congruence. }
  assert (N : forall v, PyStr.contains ["no"; "n"] v = true
                        <-> v = "n" \/ v = "no").
  { intros v. rewrite PyStrFacts.contains_In. simpl. intuition congruence. }
  assert (D : forall v, (v = "y" \/ v = "yes") -> (v = "n" \/ v = "no") -> False).
  { intros v [-> | ->] [E | E]; discriminate. }
  assert (R : forall s,
             convert BOOLEAN_TYPE (PyText s)
             = if PyStr.contains ["yes"; "y"] (PyStr.lower s) then Returned true
               else if PyStr.contains ["no"; "n"] (PyStr.lower s)
                    then Returned false
                    else Raised (BadParameter
                                   (PyStr.lower s ++ " is not a valid boolean")))
    by reflexivity.
  split; [reflexivity|].
  split; [|split; [|split; [|repeat split; reflexivity]]]; intros s;
    rewrite R; specialize (Y (PyStr.lower s)); specialize (N (PyStr.lower s));
    specialize (D (PyStr.lower s));
    destruct (PyStr.contains ["yes"; "y"] (PyStr.lower s));
    destruct (PyStr.contains ["no"; "n"] (PyStr.lower s));
    simpl; intuition (try discriminate; try congruence);
    repeat match goal with
           | E : _ = PyStr.lower s |- _ => symmetry in E
           end;
    intuition discriminate.
Qed.

(* ================================================================= *)
(** * The flow: [prompt], [confirm], [confirm_destructive_query] *)

Section FlowTheorems.
Context {SA : SqlAnalysis} {World : Type} {CO : Console World}.

Lemma prompt_run (text : string) (ty : ParamType) (s : Session World) :
  prompt text ty s =
  (abort_to_false (fst (click_prompt text ty (world s))),
   after_prompt s text (snd (click_prompt text ty (world s)))).
Proof.
  unfold prompt, except_Abort, call_click_prompt, after_prompt.
  destruct (click_prompt text ty (world s)) as [[b|[]] w]; reflexivity.
Qed.

Lemma confirm_run (text : string) (s : Session World) :
  confirm text s =
  (abort_to_false (fst (click_confirm text (world s))),
   after_prompt s text (snd (click_confirm text (world s)))).
Proof.
  unfold confirm, except_Abort, call_click_confirm, after_prompt.
  destruct (click_confirm text (world s)) as [[b|[]] w]; reflexivity.
Qed.

Lemma abort_to_false_not_Abort (r : outcome bool) :
  abort_to_false r <> Raised Abort.
Proof. destruct r as [b|[]]; discriminate. Qed.

(** The fast path. *)
Lemma flow_skip (queries : string) (double_confirm : option bool)
    (keywords : option (list string)) (strict_mode : bool)
    (s : Session World) :
  is_destructive queries = false \/ stdin_isatty (world s) = false ->
  confirm_destructive_query queries double_confirm keywords strict_mode s
  = (Returned None, s).
Proof.
  unfold confirm_destructive_query, bind, ret, sys_stdin_isatty.
  intros [H | H].
  - now rewrite H.
  - destruct (is_destructive queries); simpl; [now rewrite H | reflexivity].
Qed.

(** The prompting path, in terms of what [click.prompt] does. *)
Lemma flow_run (queries : string) (double_confirm : option bool)
    (keywords : option (list string)) (strict_mode : bool)
    (s : Session World) :
  is_destructive queries = true -> stdin_isatty (world s) = true ->
  confirm_destructive_query queries double_confirm keywords strict_mode s
  = let (r1, w1) := click_prompt prompt_text BOOLEAN_TYPE (world s) in
    let s1 := after_prompt s prompt_text w1 in
    match abort_to_false r1 with
    | Raised e => (Raised e, s1)
    | Returned false => (Returned (Some false), s1)
    | Returned true =>
        if second_gate queries double_confirm keywords strict_mode then
          let (r2, w2) := click_prompt second_prompt_text BOOLEAN_TYPE w1 in
          let s2 := after_prompt s1 second_prompt_text w2 in
          match abort_to_false r2 with
          | Raised e => (Raised e, s2)
          | Returned b => (Returned (Some b), s2)
          end
        else (Returned (Some true), s1)
    end.
Proof.
  intros Hd Ht.
  unfold confirm_destructive_query, second_gate, bind, ret, lift,
    sys_stdin_isatty.
  rewrite Hd. cbn [negb]. rewrite Ht. cbn [negb].
  rewrite prompt_run.
  destruct (click_prompt prompt_text BOOLEAN_TYPE (world s)) as [r1 w1].
  cbn [fst snd].
  destruct (abort_to_false r1) as [[|]|e]; try reflexivity.
  cbn [negb].
  destruct (flag_truthy double_confirm && keywords_truthy keywords);
    [|reflexivity].
  rewrite decider_existsb. cbn [andb returns_true].
  destruct (existsb _ (normalized queries)); [|reflexivity].
  rewrite prompt_run.
  cbn [world after_prompt].
  destruct (click_prompt second_prompt_text BOOLEAN_TYPE w1) as [r2 w2].
  cbn [fst snd].
  destruct (abort_to_false r2) as [[|]|e]; reflexivity.
Qed.

(** C1. On a destructive blob, at a terminal, after an affirmative
    first answer: the second prompt is issued exactly when
    [double_confirm] is truthy, [keywords] is non-empty and the decider
    returns true; when it is issued its answer is the result, and when
    it is not the result is true. *)
Theorem second_prompt_iff_gate
    (queries : string) (double_confirm : option bool)
    (keywords : option (list string)) (strict_mode : bool)
    (s : Session World) (w1 : World)
    (Hdestructive : is_destructive queries = true)
    (Htty : stdin_isatty (world s) = true)
    (Hfirst : click_prompt prompt_text BOOLEAN_TYPE (world s)
              = (Returned true, w1)) :
  let out :=
    confirm_destructive_query queries double_confirm keywords strict_mode s in
  let gate :=
    flag_truthy double_confirm && keywords_truthy keywords
    && returns_true (_needs_double_confirmation
                       queries (keywords_items keywords) strict_mode) in
  (prompted (snd out) = prompted s ++ [prompt_text; second_prompt_text]
   <-> gate = true)
  /\ (gate = true ->
      forall answer w2,
        click_prompt second_prompt_text BOOLEAN_TYPE w1
        = (Returned answer, w2) ->
        out = (Returned (Some answer),
               {| world := w2;
                  prompted := prompted s ++ [prompt_text; second_prompt_text] |}))
  /\ (gate = false ->
      out = (Returned (Some true),
             {| world := w1; prompted := prompted s ++ [prompt_text] |})).
Proof.
  intros out gate. subst out.
  rewrite (flow_run _ double_confirm keywords strict_mode _ Hdestructive Htty).
  rewrite Hfirst. cbn [abort_to_false].
  change (second_gate queries double_confirm keywords strict_mode) with gate.
  destruct gate.
  - split; [|split; [|discriminate]].
    + split; [reflexivity|]. intros _.
      destruct (click_prompt second_prompt_text BOOLEAN_TYPE w1) as [r2 w2].
      assert (E : forall r : outcome (option bool),
                 prompted (snd (r, after_prompt
                                     (after_prompt s prompt_text w1)
                                     second_prompt_text w2))
                 = prompted s ++ [prompt_text; second_prompt_text]).
      { intros r. cbn [snd prompted after_prompt].
        now rewrite <- List.app_assoc. }
      destruct (abort_to_false r2) as [b|e]; apply E.
    + intros _ answer w2 ->. unfold after_prompt.
      cbn [abort_to_false prompted world]. now rewrite <- List.app_assoc.
  - split; [|split; [discriminate | reflexivity]].
    split; [|discriminate]. cbn [snd prompted after_prompt]. intros E.
    apply List.app_inv_head in E. discriminate.
Qed.

(** C2. A blob that is not destructive, or a standard input that is
    not a terminal, gives [None], and the session is left as it was:
    nothing is prompted and the terminal is untouched. *)
Theorem no_prompt_fast_path
    (queries : string) (double_confirm : option bool)
    (keywords : option (list string)) (strict_mode : bool)
    (s : Session World)
    (Hskip : is_destructive queries = false
             \/ stdin_isatty (world s) = false) :
  confirm_destructive_query queries double_confirm keywords strict_mode s
  = (Returned None, s).
Proof.
  unfold confirm_destructive_query, bind, ret, sys_stdin_isatty.
  destruct Hskip as [Hd | Ht].
  - rewrite Hd. reflexivity.
  - destruct (is_destructive queries); cbn [negb].
    + rewrite Ht. reflexivity.
    + reflexivity.
Qed.

(** C6. [click.Abort] does not leave [prompt] or [confirm]: either
    returns false in its place.  So [confirm_destructive_query] never
    raises [Abort], and returns false when the first prompt is
    aborted, and when the second one is. *)
Theorem abort_is_decline
    (queries : string) (double_confirm : option bool)
    (keywords : option (list string)) (strict_mode : bool)
    (s : Session World) :
  (forall text ty,
      fst (prompt text ty s) <> Raised Abort
      /\ (fst (click_prompt text ty (world s)) = Raised Abort ->
          fst (prompt text ty s) = Returned false))
  /\ (forall text,
      fst (confirm text s) <> Raised Abort
      /\ (fst (click_confirm text (world s)) = Raised Abort ->
          fst (confirm text s) = Returned false))
  /\ fst (confirm_destructive_query
            queries double_confirm keywords strict_mode s) <> Raised Abort
  /\ (is_destructive queries = true ->
      stdin_isatty (world s) = true ->
      fst (click_prompt prompt_text BOOLEAN_TYPE (world s)) = Raised Abort ->
      fst (confirm_destructive_query
             queries double_confirm keywords strict_mode s)
      = Returned (Some false))
  /\ (is_destructive queries = true ->
      stdin_isatty (world s) = true ->
      forall w1,
        click_prompt prompt_text BOOLEAN_TYPE (world s)
        = (Returned true, w1) ->
        second_gate queries double_confirm keywords strict_mode = true ->
        fst (click_prompt second_prompt_text BOOLEAN_TYPE w1)
        = Raised Abort ->
        fst (confirm_destructive_query
               queries double_confirm keywords strict_mode s)
        = Returned (Some false)).
Proof.
  split; [|split; [|split; [|split]]].
  - intros text ty. rewrite prompt_run. cbn [fst]. split.
    + apply abort_to_false_not_Abort.
    + now intros ->.
  - intros text. rewrite confirm_run. cbn [fst]. split.
    + apply abort_to_false_not_Abort.
    + now intros ->.
  - destruct (is_destructive queries) eqn:Hd;
      [destruct (stdin_isatty (world s)) eqn:Ht|].
    + rewrite (flow_run _ double_confirm keywords strict_mode _ Hd Ht).
      destruct (click_prompt prompt_text BOOLEAN_TYPE (world s)) as [r1 w1].
      pose proof (abort_to_false_not_Abort r1) as N1.
      destruct (abort_to_false r1) as [[|]|e]; cbn [fst];
        [|discriminate | congruence].
      destruct (second_gate queries double_confirm keywords strict_mode);
        [|discriminate].
      destruct (click_prompt second_prompt_text BOOLEAN_TYPE w1) as [r2 w2].
      pose proof (abort_to_false_not_Abort r2) as N2.
      destruct (abort_to_false r2) as [b|e]; cbn [fst];
        [discriminate | congruence].
    + rewrite flow_skip; [discriminate | now right].
    + rewrite flow_skip; [discriminate | now left].
  - intros Hd Ht Ha.
    rewrite (flow_run _ double_confirm keywords strict_mode _ Hd Ht).
    destruct (click_prompt prompt_text BOOLEAN_TYPE (world s)) as [r1 w1].
    cbn [fst] in Ha. now rewrite Ha.
  - intros Hd Ht w1 Hfirst Hgate Ha.
    rewrite (flow_run _ double_confirm keywords strict_mode _ Hd Ht).
    rewrite Hfirst. cbn [abort_to_false]. rewrite Hgate.
    destruct (click_prompt second_prompt_text BOOLEAN_TYPE w1) as [r2 w2].
    cbn [fst] in Ha. now rewrite Ha.
Qed.

(** C7. On a destructive blob, at a terminal, a first answer that is
    not affirmative (a "no", or an abort) gives false whatever
    [double_confirm], [keywords] and [strict_mode] are, and only the
    first prompt has been issued. *)
Theorem first_decline_is_final
    (queries : string) (double_confirm : option bool)
    (keywords : option (list string)) (strict_mode : bool)
    (s : Session World) (r1 : outcome bool) (w1 : World)
    (Hdestructive : is_destructive queries = true)
    (Htty : stdin_isatty (world s) = true)
    (Hfirst : click_prompt prompt_text BOOLEAN_TYPE (world s) = (r1, w1))
    (Hdecline : r1 = Returned false \/ r1 = Raised Abort) :
  confirm_destructive_query queries double_confirm keywords strict_mode s
  = (Returned (Some false),
     {| world := w1; prompted := prompted s ++ [prompt_text] |}).
Proof.
  rewrite (flow_run _ double_confirm keywords strict_mode _ Hdestructive Htty).
  rewrite Hfirst. now destruct Hdecline as [-> | ->].
Qed.

End FlowTheorems.

(* ================================================================= *)
(** * The theorems at concrete inputs *)

Section Concrete.
#[local] Existing Instance Demo.analysis.
#[local] Existing Instance Demo.console.

(** DROP DATABASE in relaxed mode: the classifier finds no WHERE; and
    a lone DELETE with a WHERE clause. *)
Lemma relaxed_mode_where_gate_witness :
  _needs_double_confirmation "DROP DATABASE prod" ["drop database"] false
  = Returned true
  /\ _needs_double_confirmation
       "DELETE FROM users WHERE id=1" ["delete"] false
     = Returned false.
Proof.
  split.
  - apply (proj1 (proj2 (proj2 (proj2 (relaxed_mode_where_gate
                    "DROP DATABASE prod" ["drop database"]
                    "drop database prod" [] eq_refl))))).
    + simpl. now left.
    + reflexivity.
  - exact (proj2 (proj2 (proj2 (proj2 (proj2 (relaxed_mode_where_gate
                    "DELETE FROM users WHERE id=1" ["delete"]
                    "delete from users where id=1" [] eq_refl)))))
             eq_refl).
Defined.

(** A match in the second statement of a blob, in strict mode. *)
Lemma strict_mode_any_match_witness :
  _needs_double_confirmation "SELECT 1; DROP TABLE x" ["drop"] true
  = Returned true.
Proof.
  apply (proj1 (proj2 (strict_mode_any_match
                         "SELECT 1; DROP TABLE x" ["drop"]))
           ["select 1;"] "drop table x" []); reflexivity.
Defined.

(** C5, the claim as it was stated fails: a TAB after the first token
    is seen by the fallback and not by the prefix rules. *)
Lemma fallback_not_redundant :
  _needs_double_confirmation
    ("DROP" ++ Demo.tab ++ "TABLE users") ["drop"] true
  <> needs_double_confirmation_prefix_only
       ("DROP" ++ Demo.tab ++ "TABLE users") ["drop"] true.
Proof. vm_compute. discriminate. Qed.

Lemma fallback_redundant_witness :
  Forall (fun q => PyStr.isascii q = true)
         (normalized "SELECT 1; DROP TABLE x")
  /\ Forall (fun q => space_delimited q = true)
            (normalized "SELECT 1; DROP TABLE x")
  /\ _needs_double_confirmation "SELECT 1; DROP TABLE x" ["drop"] false
     = needs_double_confirmation_prefix_only
         "SELECT 1; DROP TABLE x" ["drop"] false.
Proof.
  assert (A : Forall (fun q => PyStr.isascii q = true)
                     (normalized "SELECT 1; DROP TABLE x"))
    by (repeat constructor).
  assert (H : Forall (fun q => space_delimited q = true)
                     (normalized "SELECT 1; DROP TABLE x"))
    by (repeat constructor).
  split; [exact A|]. split; [exact H|].
  exact (fallback_redundant_when_space_delimited
           "SELECT 1; DROP TABLE x" ["drop"] false A H).
Defined.

(** A blank blob, with a phrase to look for. *)
Lemma empty_input_is_no_match_witness :
  (normalized "   " = [] \/ norm_keywords ["drop"] = [])
  /\ _needs_double_confirmation "   " ["drop"] true = Returned false.
Proof.
  assert (H : normalized "   " = [] \/ norm_keywords ["drop"] = [])
    by (left; reflexivity).
  split; [exact H|].
  exact (empty_input_is_no_match "   " ["drop"] true H).
Defined.

(** DELETE without WHERE triggers in relaxed mode, hence in strict mode. *)
Lemma relaxed_implies_strict_witness :
  _needs_double_confirmation "DELETE FROM users" ["delete"] false
  = Returned true
  /\ _needs_double_confirmation "DELETE FROM users" ["delete"] true
     = Returned true.
Proof.
  assert (H : _needs_double_confirmation "DELETE FROM users" ["delete"] false
              = Returned true) by reflexivity.
  split; [exact H|].
  exact (relaxed_implies_strict "DELETE FROM users" ["delete"] H).
Defined.

(** "y" then "n" on DROP TABLE with the keyword [drop]: two prompts,
    and the second answer is the result. *)
Lemma second_prompt_iff_gate_witness :
  Demo.run (Demo.terminal [Demo.Typed "y"; Demo.Typed "n"])
           "DROP TABLE users" (Some true) (Some ["drop"]) true
  = (Returned (Some false),
     {| world := Demo.terminal [];
        prompted := [prompt_text; second_prompt_text] |}).
Proof.
  apply (proj1 (proj2 (@second_prompt_iff_gate
                         Demo.analysis Demo.Tty Demo.console
                         "DROP TABLE users" (Some true) (Some ["drop"]) true
                         (start (Demo.terminal
                                   [Demo.Typed "y"; Demo.Typed "n"]))
                         (Demo.terminal [Demo.Typed "n"])
                         eq_refl eq_refl eq_refl)));
    reflexivity.
Defined.

(** A piped session: nothing is read and nothing is prompted. *)
Lemma no_prompt_fast_path_witness :
  Demo.run (Demo.pipe [Demo.Typed "y"])
           "DROP TABLE users" (Some true) (Some ["drop"]) true
  = (Returned None, start (Demo.pipe [Demo.Typed "y"])).
Proof.
  apply (no_prompt_fast_path
           "DROP TABLE users" (Some true) (Some ["drop"]) true
           (start (Demo.pipe [Demo.Typed "y"]))).
  right. reflexivity.
Defined.

(** An interrupt at the second prompt. *)
Lemma abort_is_decline_witness :
  fst (Demo.run (Demo.terminal [Demo.Typed "y"; Demo.CtrlC])
                "DROP TABLE users" (Some true) (Some ["drop"]) true)
  = Returned (Some false).
Proof.
  pose proof (@abort_is_decline
                Demo.analysis Demo.Tty Demo.console
                "DROP TABLE users" (Some true) (Some ["drop"]) true
                (start (Demo.terminal [Demo.Typed "y"; Demo.CtrlC])))
    as (_ & _ & _ & _ & Hsecond).
  apply Hsecond with (w1 := Demo.terminal [Demo.CtrlC]); reflexivity.
Defined.

(** "n" at the first prompt, with everything set for a second one. *)
Lemma first_decline_is_final_witness :
  Demo.run (Demo.terminal [Demo.Typed "n"; Demo.Typed "y"])
           "DROP TABLE users" (Some true) (Some ["drop"]) true
  = (Returned (Some false),
     {| world := Demo.terminal [Demo.Typed "y"];
        prompted := [prompt_text] |}).
Proof.
  apply (@first_decline_is_final
           Demo.analysis Demo.Tty Demo.console
           "DROP TABLE users" (Some true) (Some ["drop"]) true
           (start (Demo.terminal [Demo.Typed "n"; Demo.Typed "y"]))
           (Returned false) (Demo.terminal [Demo.Typed "y"])
           eq_refl eq_refl eq_refl).
  left. reflexivity.
Defined.

(** The parser on "Yes" and on "maybe". *)
Lemma convert_yes_no_witness :
  convert BOOLEAN_TYPE (PyText "Yes") = Returned true
  /\ convert BOOLEAN_TYPE (PyText "maybe")
     = Raised (BadParameter "maybe is not a valid boolean").
Proof.
  destruct convert_yes_no as (_ & Hyes & _ & Hbad & _).
  split.
  - apply Hyes. right. reflexivity.
  - apply (proj1 (Hbad "maybe")). simpl.
    intros [E | [E | [E | [E | []]]]]; discriminate.
Defined.

End Concrete.

(* ================================================================= *)
(** * More facts about the string methods *)

Module PyStrNormal.
Import PyStr PyStrFacts.

Lemma lower_char_idem (c : ascii) : lower_char (lower_char c) = lower_char c.
Proof. destruct c as [[] [] [] [] [] [] [] []]; reflexivity. Qed.

Lemma lower_idem (s : string) : lower (lower s) = lower s.
Proof.
  induction s as [|c r IH]; simpl; [reflexivity|].
  now rewrite lower_char_idem, IH.
Qed.

Lemma truthy_lower (s : string) : truthy (lower s) = truthy s.
Proof. destruct s; reflexivity. Qed.

Lemma lstrip_lower (s : string) : lstrip (lower s) = lower (lstrip s).
Proof.
  induction s as [|c r IH]; simpl; [reflexivity|].
  rewrite isspace_lower_char. destruct (isspace c); [exact IH | reflexivity].
Qed.

Lemma rstrip_lower (s : string) : rstrip (lower s) = lower (rstrip s).
Proof.
  induction s as [|c r IH]; simpl; [reflexivity|].
  rewrite isspace_lower_char, IH, truthy_lower.
  destruct (isspace c && negb (truthy (rstrip r))); reflexivity.
Qed.

Lemma strip_lower (s : string) : strip (lower s) = lower (strip s).
Proof. unfold strip. now rewrite lstrip_lower, rstrip_lower. Qed.

Lemma rstrip_idem (s : string) : rstrip (rstrip s) = rstrip s.
Proof.
  induction s as [|c r IH]; simpl; [reflexivity|].
  destruct (isspace c && negb (truthy (rstrip r))) eqn:E; [reflexivity|].
  simpl. now rewrite IH, E.
Qed.

(** Nothing to strip on the left of a string that starts with a non-space. *)
Lemma lstrip_fixed (s : string) :
  match s with
  | EmptyString => True
  | String c _ => isspace c = false
  end -> lstrip s = s.
Proof. destruct s as [|c r]; simpl; [reflexivity | now intros ->]. Qed.

Lemma strip_idem (s : string) : strip (strip s) = strip s.
Proof.
  unfold strip at 1. rewrite (lstrip_fixed (strip s) (strip_front s)).
  unfold strip. apply rstrip_idem.
Qed.

(** The head token holds no whitespace. *)
Lemma head_token_no_space (s : string) : first_space (head_token s) = None.
Proof.
  induction s as [|c r IH]; simpl; [reflexivity|].
  destruct (isspace c) eqn:Hc; simpl; [reflexivity | now rewrite Hc].
Qed.

(** A string without whitespace is its own head token. *)
Lemma head_token_fixed (s : string) :
  first_space s = None -> head_token s = s.
Proof.
  induction s as [|c r IH]; simpl; [reflexivity|].
  destruct (isspace c); [discriminate | intros H; now rewrite IH].
Qed.

(** A whitespace-free prefix that a space follows is the head token. *)
Lemma head_token_of_prefix (q kw : string) :
  first_space kw = None ->
  startswith q (kw ++ " ") = true -> head_token q = kw.
Proof.
  unfold startswith. revert q.
  induction kw as [|k kw IH]; intros q; cbn [first_space append].
  - intros _. destruct q as [|c r]; cbn [prefix]; [discriminate|].
    destruct (ascii_dec " " c) as [E|]; [|discriminate].
    subst c. reflexivity.
  - destruct (isspace k) eqn:Hk; [discriminate|]. intros Hn.
    destruct q as [|c r]; cbn [prefix]; [discriminate|].
    destruct (ascii_dec k c) as [E|]; [|discriminate].
    subst c. intros P. cbn [head_token]. rewrite Hk.
    now rewrite (IH r Hn P).
Qed.

End PyStrNormal.

(* ================================================================= *)
(** * More facts about the decider *)

Section DeciderMore.
Context {SA : SqlAnalysis}.
Import PyStr PyStrFacts PyStrNormal.

Lemma first_token_of_normal (q : string) :
  front_nonspace q -> item0 (split q) = Returned (head_token q).
Proof.
  destruct q as [|c r]; [contradiction|]. simpl. intros F.
  destruct (@split_head_token c r F) as [rest ->]. reflexivity.
Qed.

(** The three ways a statement matches, phrase by phrase. *)
Lemma matches_In_iff (q : string) (kws : list string) :
  matches q kws = true
  <-> exists kw, In kw kws
                 /\ (startswith q (kw ++ " ") = true \/ q = kw
                     \/ item0 (split q) = Returned kw).
Proof.
  unfold matches. rewrite orb_true_iff, existsb_exists. split.
  - intros [[kw [Hin H]] | H].
    + exists kw. split; [exact Hin|].
      apply orb_true_iff in H as [H | H]; [now left | right; left].
      now apply String.eqb_eq.
    + destruct (split q) as [|first rest]; [discriminate|].
      apply contains_In in H. exists first. split; [exact H|].
      right; right. reflexivity.
  - intros [kw [Hin [H | [H | H]]]].
    + left. exists kw. split; [exact Hin|]. now rewrite H.
    + left. exists kw. split; [exact Hin|]. subst kw.
      rewrite String.eqb_refl. apply orb_true_r.
    + right. destruct (split q) as [|first rest]; [discriminate|].
      injection H as ->. now apply contains_In.
Qed.

Lemma matches_incl (q : string) (kws1 kws2 : list string) :
  incl kws1 kws2 -> matches q kws1 = true -> matches q kws2 = true.
Proof.
  intros I. rewrite !matches_In_iff. intros [kw [Hin H]].
  exists kw. split; [now apply I | exact H].
Qed.

Lemma norm_keywords_incl (keywords1 keywords2 : list string) :
  incl keywords1 keywords2 ->
  incl (norm_keywords keywords1) (norm_keywords keywords2).
Proof.
  intros I k. unfold norm_keywords. rewrite !in_map_iff.
  intros [x [E Hx]]. exists x. split; [exact E|].
  apply filter_In in Hx as [Hx T]. apply filter_In. split; [now apply I | exact T].
Qed.

Lemma triggers_incl (strict_mode : bool) (kws1 kws2 : list string) (q : string) :
  incl kws1 kws2 ->
  triggers strict_mode kws1 q = true -> triggers strict_mode kws2 q = true.
Proof.
  intros I. unfold triggers. rewrite !andb_true_iff. intros [M W].
  split; [eapply matches_incl; eassumption | exact W].
Qed.

(** A normalized phrase is its own normal form. *)
Lemma normal_form_fixed (x : string) :
  truthy (strip x) = true ->
  let k := lower (strip x) in
  truthy k && truthy (strip k) = true /\ lower (strip k) = k.
Proof.
  intros T k. subst k.
  rewrite strip_lower, strip_idem, lower_idem, !truthy_lower, T.
  split; reflexivity.
Qed.

Lemma norm_keywords_idem (keywords : list string) :
  norm_keywords (norm_keywords keywords) = norm_keywords keywords.
Proof.
  unfold norm_keywords.
  induction keywords as [|x rest IH]; [reflexivity|].
  cbn [filter]. destruct (truthy x && truthy (strip x)) eqn:E; [|exact IH].
  apply andb_true_iff in E as [_ T].
  destruct (@normal_form_fixed x T) as [K L].
  cbn [map filter]. cbv zeta in K, L. rewrite K. cbn [map]. rewrite L.
  f_equal. exact IH.
Qed.

Lemma scan_prefix_only_existsb (strict_mode : bool) (kws qs : list string) :
  scan_prefix_only strict_mode kws qs =
  Returned (existsb (fun q => prefix_matched q kws
                              && (strict_mode
                                  || negb (query_has_where_clause q))) qs).
Proof.
  induction qs as [|q rest IH]; simpl; [reflexivity|].
  destruct (prefix_matched q kws); simpl; [|exact IH].
  destruct strict_mode; simpl; [reflexivity|].
  destruct (query_has_where_clause q); simpl; [exact IH | reflexivity].
Qed.

Lemma prefix_only_existsb (queries : string) (keywords : list string)
    (strict_mode : bool) :
  needs_double_confirmation_prefix_only queries keywords strict_mode =
  Returned (existsb (fun q => prefix_matched q (norm_keywords keywords)
                              && (strict_mode
                                  || negb (query_has_where_clause q)))
                    (normalized queries)).
Proof.
  unfold needs_double_confirmation_prefix_only.
  destruct (normalized queries) as [|q qs] eqn:Eq; [reflexivity|].
  destruct (norm_keywords keywords) as [|k ks] eqn:Ek.
  - f_equal. symmetry. clear Eq.
    induction (q :: qs) as [|p ps IH]; [reflexivity | exact IH].
  - apply scan_prefix_only_existsb.
Qed.

Lemma prefix_matched_matches (q : string) (kws : list string) :
  prefix_matched q kws = true -> matches q kws = true.
Proof.
  rewrite prefix_matched_existsb. unfold matches. now intros ->.
Qed.

Lemma scan_prefix_only_when (strict_mode : bool) (kws qs : list string) :
  Forall front_nonspace qs ->
  (forall q, In q qs -> matches q kws = prefix_matched q kws) ->
  scan strict_mode kws qs = scan_prefix_only strict_mode kws qs.
Proof.
  induction 1 as [|q rest F _ IH]; intros E; simpl; [reflexivity|].
  rewrite (@statement_matched_front q kws F), (E q (or_introl eq_refl)).
  rewrite IH; [reflexivity|]. intros p Hp. apply E. now right.
Qed.

(** Phrases that all hold whitespace are never a first token. *)
Lemma multiword_not_first_token (q : string) (kws : list string) :
  front_nonspace q ->
  Forall (fun kw => first_space kw <> None) kws ->
  matches q kws = prefix_matched q kws.
Proof.
  intros F A. destruct (prefix_matched q kws) eqn:P.
  - now apply prefix_matched_matches.
  - unfold matches. rewrite <- prefix_matched_existsb, P. simpl.
    pose proof (@first_token_of_normal q F) as T.
    destruct (split q) as [|first rest]; [reflexivity|].
    injection T as ->.
    destruct (contains kws (head_token q)) eqn:C; [|reflexivity].
    apply contains_In in C. rewrite Forall_forall in A.
    destruct (A _ C (head_token_no_space q)).
Qed.

End DeciderMore.

(* ================================================================= *)
(** * Further properties of [_needs_double_confirmation] *)

Section DeciderProperties.
Context {SA : SqlAnalysis}.
Import PyStr PyStrFacts PyStrNormal.

(** X1. The lookup [q.split()[0]] raises [IndexError] on a statement
    without a token that no phrase matched by prefix; the decider never
    gets there, because it drops blank statements first: it returns a
    boolean on every input. *)
Theorem decider_never_raises :
  (forall q kws, split q = [] -> prefix_matched q kws = false ->
                 statement_matched q kws = Raised IndexError)
  /\ (forall queries keywords strict_mode,
        exists b,
          _needs_double_confirmation queries keywords strict_mode
          = Returned b).
Proof.
  split.
  - intros q kws S P. unfold statement_matched. now rewrite P, S.
  - intros queries keywords strict_mode. rewrite decider_existsb. eauto.
Qed.

(** X2. The decider sees the keywords as a set: two collections with
    the same members, in any order and with any repetitions, give the
    same result. *)
Theorem keywords_are_a_set
    (queries : string) (keywords1 keywords2 : list string)
    (strict_mode : bool)
    (Hsame : forall k, In k keywords1 <-> In k keywords2) :
  _needs_double_confirmation queries keywords1 strict_mode
  = _needs_double_confirmation queries keywords2 strict_mode.
Proof.
  assert (I12 : incl (norm_keywords keywords1) (norm_keywords keywords2))
    by (apply norm_keywords_incl; intros k; apply Hsame).
  assert (I21 : incl (norm_keywords keywords2) (norm_keywords keywords1))
    by (apply norm_keywords_incl; intros k; apply Hsame).
  rewrite !decider_existsb. f_equal.
  induction (normalized queries) as [|q qs IH]; simpl; [reflexivity|].
  rewrite IH. f_equal.
  destruct (triggers strict_mode (norm_keywords keywords1) q) eqn:T1;
    destruct (triggers strict_mode (norm_keywords keywords2) q) eqn:T2;
    try reflexivity.
  - apply (@triggers_incl SA strict_mode _ _ q I12) in T1. congruence.
  - apply (@triggers_incl SA strict_mode _ _ q I21) in T2. congruence.
Qed.

(** X3. Adding keywords never removes a second confirmation: what
    triggers with a collection triggers with every larger one. *)
Theorem more_keywords_more_triggers
    (queries : string) (keywords1 keywords2 : list string)
    (strict_mode : bool)
    (Hincl : incl keywords1 keywords2)
    (Htrue : _needs_double_confirmation queries keywords1 strict_mode
             = Returned true) :
  _needs_double_confirmation queries keywords2 strict_mode = Returned true.
Proof.
  apply decider_true_iff in Htrue as [q [Hin T]].
  apply decider_true_iff. exists q. split; [exact Hin|].
  exact (@triggers_incl SA strict_mode _ _ q
           (@norm_keywords_incl _ _ Hincl) T).
Qed.

(** X4. Normalizing the keywords is idempotent, so passing keywords
    that are already trimmed and lower-cased, or not, is the same. *)
Theorem keywords_normalized_once
    (queries : string) (keywords : list string) (strict_mode : bool) :
  norm_keywords (norm_keywords keywords) = norm_keywords keywords
  /\ _needs_double_confirmation queries (norm_keywords keywords) strict_mode
     = _needs_double_confirmation queries keywords strict_mode.
Proof.
  split; [apply norm_keywords_idem|].
  now rewrite !decider_existsb, norm_keywords_idem.
Qed.

(** X5. In relaxed mode the decider returns false exactly when every
    normalized statement that matches a phrase has a WHERE clause,
    according to the classifier. *)
Theorem relaxed_false_iff_all_scoped
    (queries : string) (keywords : list string) :
  _needs_double_confirmation queries keywords false = Returned false
  <-> (forall q, In q (normalized queries) ->
                 matches q (norm_keywords keywords) = true ->
                 query_has_where_clause q = true).
Proof.
  rewrite decider_existsb. split.
  - intros [= E] q Hin Hm.
    destruct (query_has_where_clause q) eqn:W; [reflexivity|].
    assert (T : existsb (triggers false (norm_keywords keywords))
                        (normalized queries) = true).
    { apply existsb_exists. exists q. split; [exact Hin|].
      unfold triggers. now rewrite Hm, W. }
    congruence.
  - intros H. f_equal.
    destruct (existsb _ (normalized queries)) eqn:E; [|reflexivity].
    apply existsb_exists in E as [q [Hin T]].
    unfold triggers in T. apply andb_true_iff in T as [Hm W].
    rewrite (H q Hin Hm) in W. discriminate.
Qed.

(** X6. On a blob in which the classifier finds no WHERE clause at
    all, relaxed mode and strict mode decide the same. *)
Theorem modes_agree_without_where
    (queries : string) (keywords : list string)
    (Hnone : forall q, In q (normalized queries) ->
                       query_has_where_clause q = false) :
  _needs_double_confirmation queries keywords false
  = _needs_double_confirmation queries keywords true.
Proof.
  rewrite !decider_existsb. f_equal.
  induction (normalized queries) as [|q qs IH]; simpl; [reflexivity|].
  rewrite IH by (intros p Hp; apply Hnone; now right).
  unfold triggers. rewrite (Hnone q (or_introl eq_refl)). reflexivity.
Qed.

(** X7. With ASCII statements and ASCII phrases that hold no
    whitespace, matching is on the first token and on nothing else: at
    [if matched:] the flag is true exactly when [q.split()[0]] is one
    of the phrases, and the strict decider returns true exactly when
    the first token of some statement is one of the phrases. *)
Theorem single_words_match_first_token
    (queries : string) (keywords : list string)
    (Hascii : Forall (fun q => isascii q = true) (normalized queries))
    (Hwords : Forall (fun kw => isascii kw = true /\ first_space kw = None)
                     (norm_keywords keywords)) :
  (forall q, In q (normalized queries) ->
     (statement_matched q (norm_keywords keywords) = Returned true
      <-> exists first, item0 (split q) = Returned first
                        /\ In first (norm_keywords keywords)))
  /\ (_needs_double_confirmation queries keywords true = Returned true
      <-> exists q first,
            In q (normalized queries)
            /\ item0 (split q) = Returned first
            /\ In first (norm_keywords keywords)).
Proof.
  rewrite Forall_forall in Hwords.
  assert (M : forall q, In q (normalized queries) ->
                matches q (norm_keywords keywords) = true
                <-> exists first, item0 (split q) = Returned first
                                  /\ In first (norm_keywords keywords)).
  { intros q Hq.
    pose proof (@normalized_front SA queries q Hq) as F.
    pose proof (@first_token_of_normal q F) as T.
    rewrite matches_In_iff. split.
    - intros [kw [Hin H]]. exists kw. split; [|exact Hin].
      destruct H as [H | [H | H]]; [| |exact H]; rewrite T; f_equal.
      + apply head_token_of_prefix; [now apply Hwords | exact H].
      + subst kw. apply head_token_fixed. now apply Hwords.
    - intros [first [H Hin]]. exists first. split; [exact Hin|].
      right; right. exact H. }
  split.
  - intros q Hq.
    rewrite (@statement_matched_front q _ (@normalized_front SA queries q Hq)).
    rewrite <- (M q Hq). split; [now intros [= ->] | now intros ->].
  - rewrite decider_true_iff. split.
    + intros [q [Hq T]]. unfold triggers in T.
      apply andb_true_iff in T as [Hm _].
      apply (M q Hq) in Hm as [first [H Hin]]. exists q, first. auto.
    + intros [q [first [Hq [H Hin]]]]. exists q. split; [exact Hq|].
      unfold triggers. rewrite (proj2 (M q Hq)); [reflexivity|].
      exists first. auto.
Qed.

(** X8. When every normalized phrase holds whitespace (multi-word
    phrases only), the first-token fallback never fires: the decider
    returns what it would without it. *)
Theorem multiword_keywords_match_by_prefix
    (queries : string) (keywords : list string) (strict_mode : bool)
    (Hmulti : Forall (fun kw => first_space kw <> None)
                     (norm_keywords keywords)) :
  _needs_double_confirmation queries keywords strict_mode
  = needs_double_confirmation_prefix_only queries keywords strict_mode.
Proof.
  unfold _needs_double_confirmation, needs_double_confirmation_prefix_only.
  pose proof (normalized_front queries) as F.
  destruct (normalized queries) as [|q qs]; [reflexivity|].
  destruct (norm_keywords keywords) as [|k ks]; [reflexivity|].
  apply scan_prefix_only_when.
  - apply Forall_forall. exact F.
  - intros p Hp. apply multiword_not_first_token; [now apply F | exact Hmulti].
Qed.

(** X9. The fallback only adds matches: whenever the decider without
    it returns true, the decider returns true. *)
Theorem fallback_only_adds
    (queries : string) (keywords : list string) (strict_mode : bool)
    (Hprefix : needs_double_confirmation_prefix_only
                 queries keywords strict_mode = Returned true) :
  _needs_double_confirmation queries keywords strict_mode = Returned true.
Proof.
  apply decider_true_iff.
  rewrite prefix_only_existsb in Hprefix. injection Hprefix as E.
  apply existsb_exists in E as [p [Hin T]].
  exists p. split; [exact Hin|].
  apply andb_true_iff in T as [P W]. unfold triggers.
  now rewrite (@prefix_matched_matches _ _ P), W.
Qed.

End DeciderProperties.

(* ================================================================= *)
(** * Further properties of the parser and of the flow *)

Module ConvertFacts.
Import PyStr PyStrFacts PyStrNormal.

Lemma first_space_lower (s : string) :
  first_space (lower s) = option_map lower_char (first_space s).
Proof.
  induction s as [|c r IH]; simpl; [reflexivity|].
  rewrite isspace_lower_char. destruct (isspace c); [reflexivity | exact IH].
Qed.

Lemma convert_text (s : string) :
  convert BOOLEAN_TYPE (PyText s)
  = if contains ["yes"; "y"] (lower s) then Returned true
    else if contains ["no"; "n"] (lower s) then Returned false
         else Raised (BadParameter (lower s ++ " is not a valid boolean")).
Proof. reflexivity. Qed.

Lemma convert_accepts (s : string) (b : bool) :
  convert BOOLEAN_TYPE (PyText s) = Returned b ->
  In (lower s) ["y"; "yes"; "n"; "no"].
Proof.
  rewrite convert_text.
  destruct (contains ["yes"; "y"] (lower s)) eqn:Y.
  - intros _. apply contains_In in Y. simpl in Y |- *. tauto.
  - destruct (contains ["no"; "n"] (lower s)) eqn:N;
      [|intros E; discriminate E].
    intros _. apply contains_In in N. simpl in N |- *. tauto.
Qed.

Lemma convert_total (s : string) :
  (exists b, convert BOOLEAN_TYPE (PyText s) = Returned b)
  \/ convert BOOLEAN_TYPE (PyText s)
     = Raised (BadParameter (lower s ++ " is not a valid boolean")).
Proof.
  rewrite convert_text.
  destruct (contains ["yes"; "y"] (lower s)); [left; eauto|].
  destruct (contains ["no"; "n"] (lower s)); [left; eauto | now right].
Qed.

End ConvertFacts.

(** X10. [convert] reads text through its lower-case form only: a
    text and its lower-cased form get the same answer, and the same
    failure message. *)
Theorem convert_ignores_case (s : string) :
  convert BOOLEAN_TYPE (PyText (PyStr.lower s))
  = convert BOOLEAN_TYPE (PyText s).
Proof.
  rewrite !ConvertFacts.convert_text.
  now rewrite PyStrNormal.lower_idem.
Qed.

(** X11. [convert] does not trim: a text that holds a whitespace
    character anywhere is refused with [BadParameter]. *)
Theorem convert_does_not_trim (s : string)
    (Hspace : PyStr.first_space s <> None) :
  convert BOOLEAN_TYPE (PyText s)
  = Raised (BadParameter (PyStr.lower s ++ " is not a valid boolean")).
Proof.
  destruct (ConvertFacts.convert_total s) as [[b E] | E]; [|exact E].
  exfalso. apply Hspace.
  pose proof (ConvertFacts.convert_accepts s E) as A.
  pose proof (ConvertFacts.first_space_lower s) as L.
  destruct (PyStr.first_space s) as [c|]; [|reflexivity].
  simpl in A, L.
  destruct A as [A | [A | [A | [A | []]]]]; rewrite <- A in L; discriminate.
Qed.

Section FlowProperties.
Context {SA : SqlAnalysis} {World : Type} {CO : Console World}.

(** X12. [prompt] changes nothing but an abort: whatever else
    [click.prompt] returns or raises, [prompt] returns or raises, so an
    error that is not [click.Abort] reaches the caller; and likewise
    [confirm] with [click.confirm]. *)
Theorem prompt_passes_all_but_abort
    (text : string) (ty : ParamType) (s : Session World) :
  (fst (click_prompt text ty (world s)) <> Raised Abort ->
   fst (prompt text ty s) = fst (click_prompt text ty (world s)))
  /\ (fst (click_confirm text (world s)) <> Raised Abort ->
      fst (confirm text s) = fst (click_confirm text (world s)))
  /\ snd (prompt text ty s)
     = {| world := snd (click_prompt text ty (world s));
          prompted := prompted s ++ [text] |}
  /\ snd (confirm text s)
     = {| world := snd (click_confirm text (world s));
          prompted := prompted s ++ [text] |}.
Proof.
  rewrite prompt_run, confirm_run. cbn [fst snd].
  repeat split.
  - destruct (fst (click_prompt text ty (world s))) as [b|[]];
      try reflexivity. intros N. now destruct N.
  - destruct (fst (click_confirm text (world s))) as [b|[]];
      try reflexivity. intros N. now destruct N.
Qed.

(** X13. The flow prompts not at all, or once with the first text, or
    twice with the first text and then the second: never more, and
    never the second text alone.  When it does not prompt, it returns
    [None] and leaves the session as it was. *)
Theorem prompts_are_none_one_or_two
    (queries : string) (double_confirm : option bool)
    (keywords : option (list string)) (strict_mode : bool)
    (s : Session World) :
  let out :=
    confirm_destructive_query queries double_confirm keywords strict_mode s in
  out = (Returned None, s)
  \/ prompted (snd out) = prompted s ++ [prompt_text]
  \/ prompted (snd out) = prompted s ++ [prompt_text; second_prompt_text].
Proof.
  intros out. subst out.
  destruct (is_destructive queries) eqn:Hd;
    [destruct (stdin_isatty (world s)) eqn:Ht|].
  - right.
    rewrite (flow_run _ double_confirm keywords strict_mode _ Hd Ht).
    destruct (click_prompt prompt_text BOOLEAN_TYPE (world s)) as [r1 w1].
    destruct (abort_to_false r1) as [[|]|e]; [|now left | now left].
    destruct (second_gate queries double_confirm keywords strict_mode);
      [|now left].
    right.
    destruct (click_prompt second_prompt_text BOOLEAN_TYPE w1) as [r2 w2].
    destruct (abort_to_false r2) as [b|e];
      cbn [snd prompted after_prompt]; now rewrite <- List.app_assoc.
  - left. apply flow_skip. now right.
  - left. apply flow_skip. now left.
Qed.

(** X14. The flow returns [None] only on its fast path: on a
    destructive blob at a terminal it returns true or false, or raises. *)
Theorem none_only_on_fast_path
    (queries : string) (double_confirm : option bool)
    (keywords : option (list string)) (strict_mode : bool)
    (s : Session World) :
  fst (confirm_destructive_query
         queries double_confirm keywords strict_mode s) = Returned None
  <-> is_destructive queries = false \/ stdin_isatty (world s) = false.
Proof.
  split.
  - intros H.
    destruct (is_destructive queries) eqn:Hd; [|now left].
    destruct (stdin_isatty (world s)) eqn:Ht; [|now right].
    exfalso. revert H.
    rewrite (flow_run _ double_confirm keywords strict_mode _ Hd Ht).
    destruct (click_prompt prompt_text BOOLEAN_TYPE (world s)) as [r1 w1].
    destruct (abort_to_false r1) as [[|]|e]; try discriminate.
    destruct (second_gate queries double_confirm keywords strict_mode);
      [|discriminate].
    destruct (click_prompt second_prompt_text BOOLEAN_TYPE w1) as [r2 w2].
    destruct (abort_to_false r2) as [b|e]; discriminate.
  - intros H. now rewrite flow_skip.
Qed.

(** X15. The flow approves only what the operator approved: if it
    returns true, the blob was destructive, a terminal was attached,
    the first prompt returned true, and, where the second gate applies,
    the second prompt returned true as well. *)
Theorem approval_needs_every_yes
    (queries : string) (double_confirm : option bool)
    (keywords : option (list string)) (strict_mode : bool)
    (s : Session World)
    (Happroved : fst (confirm_destructive_query
                        queries double_confirm keywords strict_mode s)
                 = Returned (Some true)) :
  is_destructive queries = true
  /\ stdin_isatty (world s) = true
  /\ fst (click_prompt prompt_text BOOLEAN_TYPE (world s)) = Returned true
  /\ (second_gate queries double_confirm keywords strict_mode = true ->
      fst (click_prompt second_prompt_text BOOLEAN_TYPE
             (snd (click_prompt prompt_text BOOLEAN_TYPE (world s))))
      = Returned true).
Proof.
  destruct (is_destructive queries) eqn:Hd;
    [|rewrite flow_skip in Happroved; [discriminate | now left]].
  destruct (stdin_isatty (world s)) eqn:Ht;
    [|rewrite flow_skip in Happroved; [discriminate | now right]].
  rewrite (flow_run _ double_confirm keywords strict_mode _ Hd Ht)
    in Happroved.
  destruct (click_prompt prompt_text BOOLEAN_TYPE (world s)) as [r1 w1].
  cbn [fst snd].
  destruct r1 as [[|]|[]]; try discriminate.
  repeat split. intros G. rewrite G in Happroved.
  destruct (click_prompt second_prompt_text BOOLEAN_TYPE w1) as [r2 w2].
  cbn [fst]. destruct r2 as [[|]|[]]; try discriminate. reflexivity.
Qed.

(** X16. Without [double_confirm], or without keywords, the flow is
    the single-prompt flow: [keywords] and [strict_mode] have no effect,
    the call behaves as the call with the default arguments, and the
    second text is never prompted. *)
Theorem single_prompt_without_double_confirm
    (queries : string) (double_confirm : option bool)
    (keywords : option (list string)) (strict_mode strict_mode' : bool)
    (s : Session World)
    (Hoff : flag_truthy double_confirm = false
            \/ keywords_truthy keywords = false) :
  confirm_destructive_query queries double_confirm keywords strict_mode s
  = confirm_destructive_query queries None None strict_mode' s
  /\ ~ In second_prompt_text
          (skipn (length (prompted s))
             (prompted (snd (confirm_destructive_query
                               queries double_confirm keywords
                               strict_mode s)))).
Proof.
  assert (G : second_gate queries double_confirm keywords strict_mode = false).
  { unfold second_gate. destruct Hoff as [-> | ->]; [reflexivity|].
    now rewrite andb_false_r. }
  destruct (is_destructive queries) eqn:Hd;
    [destruct (stdin_isatty (world s)) eqn:Ht|].
  - rewrite !(flow_run _ _ _ _ _ Hd Ht), G.
    change (second_gate queries None None strict_mode') with false.
    split; [reflexivity|].
    destruct (click_prompt prompt_text BOOLEAN_TYPE (world s)) as [r1 w1].
    assert (E : forall r : outcome (option bool),
               skipn (length (prompted s))
                     (prompted (snd (r, after_prompt s prompt_text w1)))
               = [prompt_text]).
    { intros r. cbn [snd prompted after_prompt].
      rewrite skipn_app, skipn_all, Nat.sub_diag. reflexivity. }
    destruct (abort_to_false r1) as [[|]|e]; rewrite E;
      intros [H | []]; discriminate.
  - rewrite !flow_skip by now right. split; [reflexivity|].
    cbn [snd]. rewrite skipn_all. intros [].
  - rewrite !flow_skip by now left. split; [reflexivity|].
    cbn [snd]. rewrite skipn_all. intros [].
Qed.

(** X17. What the flow raises, [click.prompt] raised: an exception out
    of the flow is never [click.Abort] and is the exception of the first
    prompt, or of the second prompt after an affirmative first answer
    with the second gate open. *)
Theorem flow_raises_only_what_click_raised
    (queries : string) (double_confirm : option bool)
    (keywords : option (list string)) (strict_mode : bool)
    (s : Session World) (e : exn)
    (Hraised : fst (confirm_destructive_query
                      queries double_confirm keywords strict_mode s)
               = Raised e) :
  e <> Abort
  /\ is_destructive queries = true
  /\ stdin_isatty (world s) = true
  /\ (fst (click_prompt prompt_text BOOLEAN_TYPE (world s)) = Raised e
      \/ (fst (click_prompt prompt_text BOOLEAN_TYPE (world s))
          = Returned true
          /\ second_gate queries double_confirm keywords strict_mode = true
          /\ fst (click_prompt second_prompt_text BOOLEAN_TYPE
                    (snd (click_prompt prompt_text BOOLEAN_TYPE (world s))))
             = Raised e)).
Proof.
  destruct (is_destructive queries) eqn:Hd;
    [|rewrite flow_skip in Hraised; [discriminate | now left]].
  destruct (stdin_isatty (world s)) eqn:Ht;
    [|rewrite flow_skip in Hraised; [discriminate | now right]].
  rewrite (flow_run _ double_confirm keywords strict_mode _ Hd Ht)
    in Hraised.
  destruct (click_prompt prompt_text BOOLEAN_TYPE (world s)) as [r1 w1].
  cbn [fst snd].
  destruct r1 as [[|]|e1].
  - cbn [abort_to_false] in Hraised.
    destruct (second_gate queries double_confirm keywords strict_mode);
      [|discriminate].
    destruct (click_prompt second_prompt_text BOOLEAN_TYPE w1) as [r2 w2].
    cbn [fst]. destruct r2 as [b|e2]; [discriminate|].
    destruct e2; try discriminate; injection Hraised as <-;
      (split; [discriminate|]); repeat split; right; repeat split.
  - discriminate.
  - destruct e1; try discriminate; injection Hraised as <-;
      (split; [discriminate|]); repeat split; now left.
Qed.

End FlowProperties.

(* ================================================================= *)
(** * The further properties at concrete inputs *)

Section MoreConcrete.
#[local] Existing Instance Demo.analysis.
#[local] Existing Instance Demo.console.

(** The same keywords, reordered and repeated. *)
Lemma keywords_are_a_set_witness :
  _needs_double_confirmation
    "SELECT 1; DROP TABLE x" ["drop"; "delete"] true
  = _needs_double_confirmation
      "SELECT 1; DROP TABLE x" ["delete"; "drop"; "drop"] true.
Proof.
  apply (@keywords_are_a_set Demo.analysis
           "SELECT 1; DROP TABLE x"
           ["drop"; "delete"] ["delete"; "drop"; "drop"] true).
  intros k. simpl. tauto.
Defined.

(** One keyword more. *)
Lemma more_keywords_more_triggers_witness :
  _needs_double_confirmation "DROP TABLE x" ["delete"; "drop"] false
  = Returned true.
Proof.
  apply (@more_keywords_more_triggers Demo.analysis
           "DROP TABLE x" ["drop"] ["delete"; "drop"] false).
  - intros k [<- | []]. simpl. tauto.
  - reflexivity.
Defined.

(** Two statements, neither with a WHERE clause. *)
Lemma modes_agree_without_where_witness :
  _needs_double_confirmation "DROP TABLE x; TRUNCATE y" ["truncate"] false
  = _needs_double_confirmation "DROP TABLE x; TRUNCATE y" ["truncate"] true.
Proof.
  apply (@modes_agree_without_where Demo.analysis
           "DROP TABLE x; TRUNCATE y" ["truncate"]).
  intros q [<- | [<- | []]]; reflexivity.
Defined.

(** DROP TABLE x and the words [drop], [delete], in strict mode. *)
Lemma single_words_match_first_token_witness :
  _needs_double_confirmation "DROP TABLE x" ["drop"; "delete"] true
  = Returned true
  <-> exists q first,
        In q (normalized "DROP TABLE x")
        /\ item0 (PyStr.split q) = Returned first
        /\ In first (norm_keywords ["drop"; "delete"]).
Proof.
  apply (@single_words_match_first_token Demo.analysis
           "DROP TABLE x" ["drop"; "delete"]).
  - repeat constructor.
  - repeat constructor.
Defined.

(** Two-word phrases only. *)
Lemma multiword_keywords_match_by_prefix_witness :
  _needs_double_confirmation
    "DROP DATABASE prod" ["drop database"; "drop table"] false
  = needs_double_confirmation_prefix_only
      "DROP DATABASE prod" ["drop database"; "drop table"] false.
Proof.
  apply (@multiword_keywords_match_by_prefix Demo.analysis
           "DROP DATABASE prod" ["drop database"; "drop table"] false).
  repeat constructor; discriminate.
Defined.

(** A statement the prefix rule already matches. *)
Lemma fallback_only_adds_witness :
  _needs_double_confirmation "DROP TABLE x" ["drop"] true = Returned true.
Proof.
  apply (@fallback_only_adds Demo.analysis "DROP TABLE x" ["drop"] true).
  reflexivity.
Defined.

(** "y" with a trailing space. *)
Lemma convert_does_not_trim_witness :
  convert BOOLEAN_TYPE (PyText "y ")
  = Raised (BadParameter "y  is not a valid boolean").
Proof.
  apply (convert_does_not_trim "y "). discriminate.
Defined.

(** Two affirmative answers. *)
Lemma approval_needs_every_yes_witness :
  is_destructive "DROP TABLE users" = true
  /\ fst (click_prompt prompt_text BOOLEAN_TYPE
            (Demo.terminal [Demo.Typed "y"; Demo.Typed "yes"]))
     = Returned true.
Proof.
  pose proof (@approval_needs_every_yes
                Demo.analysis Demo.Tty Demo.console
                "DROP TABLE users" (Some true) (Some ["drop"]) true
                (start (Demo.terminal [Demo.Typed "y"; Demo.Typed "yes"]))
                eq_refl) as (Hd & _ & Hfirst & _).
  split; [exact Hd | exact Hfirst].
Defined.

(** [double_confirm] set, and an empty keyword list. *)
Lemma single_prompt_without_double_confirm_witness :
  Demo.run (Demo.terminal [Demo.Typed "y"; Demo.Typed "n"])
           "DROP TABLE users" (Some true) (Some []) false
  = Demo.run (Demo.terminal [Demo.Typed "y"; Demo.Typed "n"])
             "DROP TABLE users" None None true.
Proof.
  apply (@single_prompt_without_double_confirm
           Demo.analysis Demo.Tty Demo.console
           "DROP TABLE users" (Some true) (Some []) false true
           (start (Demo.terminal [Demo.Typed "y"; Demo.Typed "n"]))).
  right. reflexivity.
Defined.

(** A terminal that fails with an error other than an abort. *)
Lemma flow_raises_only_what_click_raised_witness :
  fst (@click_prompt unit Demo.broken_console prompt_text BOOLEAN_TYPE tt)
  = Raised (OtherError "OSError")
  \/ (fst (@click_prompt unit Demo.broken_console prompt_text BOOLEAN_TYPE tt)
      = Returned true
      /\ @second_gate Demo.analysis
           "DROP TABLE users" (Some true) (Some ["drop"]) true = true
      /\ fst (@click_prompt unit Demo.broken_console
                second_prompt_text BOOLEAN_TYPE
                (snd (@click_prompt unit Demo.broken_console
                        prompt_text BOOLEAN_TYPE tt)))
         = Raised (OtherError "OSError")).
Proof.
  apply (@flow_raises_only_what_click_raised
           Demo.analysis unit Demo.broken_console
           "DROP TABLE users" (Some true) (Some ["drop"]) true
           (start tt) (OtherError "OSError") eq_refl).
Defined.

End MoreConcrete.
